(** * LoopBackWallet: the credential wallet of composer-rest-server

    A shallow embedding of [packages/composer-rest-server/lib/loopbackwallet.js]
    and the properties of its six operations.

    The wallet keeps no state of its own.  Every operation asks the LoopBack
    model [WalletIdentity] for one instance, reads or mutates the JavaScript
    object held in the instance's [data] property, and (for the mutators)
    saves the instance back. *)

From stdpp Require Import gmap strings list sorting.

(** ** JavaScript values and objects *)

(** Credential names and credential values are JavaScript strings, written
    here as Rocq strings: a character stands for a code unit. *)

(** What a property read on [identity.data] can evaluate to: [undefined], a
    credential stored as an own property, or the member that
    [Object.prototype] holds under that name (a built-in function, or
    the prototype itself for the accessor [__proto__]). *)
Inductive JsValue : Type :=
  | Undefined
  | Str (s : string)
  | Inherited (name : string).

(** The property names every ordinary object inherits from
    [Object.prototype]. *)
Definition Object_prototype : list string :=
  [ "constructor"; "__defineGetter__"; "__defineSetter__"; "hasOwnProperty";
    "__lookupGetter__"; "__lookupSetter__"; "isPrototypeOf";
    "propertyIsEnumerable"; "toString"; "valueOf"; "__proto__";
    "toLocaleString" ].

(** An ordinary object whose prototype is [Object.prototype]: the finite map
    of its own (enumerable, string valued) properties. *)
Abbreviation JsObject := (gmap string string).

(** [o[name]]: the own property if there is one, else the prototype chain. *)
Definition js_get (o : JsObject) (name : string) : JsValue :=
  match o !! name with
  | Some v => Str v
  | None => if bool_decide (name ∈ Object_prototype) then Inherited name
            else Undefined
  end.

(** Whether a value counts as true in a condition: [undefined] and the
    empty string do not. *)
Definition truthy (v : JsValue) : bool :=
  match v with
  | Undefined => false
  | Str s => negb (bool_decide (s = ""))
  | Inherited _ => true
  end.

(** [o[name] = value] for a string [value].  An own property is overwritten.
    Otherwise the assignment creates an own property, except for
    [__proto__]: that name is an accessor of [Object.prototype] whose setter
    runs instead, and the setter ignores a value that is neither an object
    nor [null]. *)
Definition js_set (o : JsObject) (name value : string) : JsObject :=
  match o !! name with
  | Some _ => <[name := value]> o
  | None => if bool_decide (name = "__proto__") then o
            else <[name := value]> o
  end.

(** [delete o[name]]: removes an own property, does nothing otherwise. *)
Definition js_delete (o : JsObject) (name : string) : JsObject :=
  delete name o.

(** [Object.keys(o)]: the names of the own enumerable properties. *)
Definition Object_keys (o : JsObject) : list string :=
  elements (dom o).

(** The built-in [Object.prototype.hasOwnProperty]. *)
Definition hasOwnProperty (o : JsObject) (name : string) : bool :=
  bool_decide (is_Some (o !! name)).

(** The order of the default comparison of [sort]: two strings are compared
    code unit by code unit, and a proper prefix comes first. *)
Definition name_le (a b : string) : Prop := String.leb a b = true.

#[global] Instance name_le_dec a b : Decision (name_le a b).
Proof. unfold name_le. apply _. Defined.

(** [names.sort()] with the default comparison. *)
Definition Array_sort (names : list string) : list string :=
  merge_sort name_le names.

(** ** Promises *)

(** The errors a promise of this file can be rejected with: the two
    [TypeError]s the callbacks can throw, and whatever error the data source
    reports (opaque to the wallet). *)
Inductive JsError : Type :=
  | TypeError_property_of_null (property : string)
  | TypeError_not_a_function (callee : string)
  | StoreError (reason : string).

Inductive Promise (A : Type) : Type :=
  | Resolved (a : A)
  | Rejected (e : JsError).
Arguments Resolved {A} a.
Arguments Rejected {A} e.

(** An asynchronous computation over the state [S] of the data source. *)
Definition Async (S A : Type) : Type := S → Promise A * S.

Definition resolve {S A} (a : A) : Async S A := λ st, (Resolved a, st).
Definition reject {S A} (e : JsError) : Async S A := λ st, (Rejected e, st).

(** [p.then(callback)] with a fulfilment callback only: a rejection of [p]
    skips the callback and rejects the resulting promise with the same
    error. *)
Definition then_ {S A B} (p : Async S A) (callback : A → Async S B)
  : Async S B :=
  λ st, match p st with
        | (Resolved a, st') => callback a st'
        | (Rejected e, st') => (Rejected e, st')
        end.

#[global] Instance Async_bind S : MBind (Async S) := λ A B f p, then_ p f.
#[global] Instance Async_ret S : MRet (Async S) := λ A, resolve.

(** ** The WalletIdentity model *)

(** A model instance as the wallet sees it: its primary key, the two
    properties the wallet is looked up by, and the credential object. *)
Record WalletIdentity : Type := {
  identity_id : N;
  identity_walletId : N;
  identity_enrollmentID : string;
  data : JsObject
}.

Definition with_data (identity : WalletIdentity) (d : JsObject)
  : WalletIdentity :=
  {| identity_id := identity_id identity;
     identity_walletId := identity_walletId identity;
     identity_enrollmentID := identity_enrollmentID identity;
     data := d |}.

(** The object literal [{ walletId: w, enrollmentID: e }]. *)
Record Where : Type := {
  where_walletId : N;
  where_enrollmentID : string
}.

(** The objects the wallet passes to [findOne].  A LoopBack filter keeps its
    conditions under the key [where]; here the same two keys also occur at
    the top level of the object. *)
Record Filter : Type := {
  filter_where : option Where;
  top_walletId : option N;
  top_enrollmentID : option string
}.

#[global] Instance Where_eq_dec : EqDecision Where.
Proof. solve_decision. Defined.
#[global] Instance Filter_eq_dec : EqDecision Filter.
Proof. solve_decision. Defined.
#[global] Instance JsValue_eq_dec : EqDecision JsValue.
Proof. solve_decision. Defined.
#[global] Instance WalletIdentity_eq_dec : EqDecision WalletIdentity.
Proof. solve_decision. Defined.

(** What the wallet requires of [app.models.WalletIdentity]:
    [findOne(filter)], a promise of an instance or of [null] ([None]), and
    [identity.save()], a promise of the saved instance. *)
Class WalletIdentityModel (S : Type) : Type := {
  findOne : Filter → S → Promise (option WalletIdentity);
  save : WalletIdentity → Async S WalletIdentity
}.

(** ** The wallet *)

Module LoopBackWallet.

Record Wallet : Type := { id : N }.

(** [this]: the wallet instance and the enrollment ID ([this.app] is the
    data source the operations run against). *)
Record t : Type := {
  wallet : Wallet;
  enrollmentID : string
}.

(** [new LoopBackWallet(app, wallet, enrollmentID)]; the application is
    the data source the operations are run against. *)
Definition constructor (wallet : Wallet) (enrollmentID : string) : t :=
  {| wallet := wallet; enrollmentID := enrollmentID |}.

Section Operations.
Context {S : Type} `{!WalletIdentityModel S}.

(** [{ walletId: this.wallet.id, enrollmentID: this.enrollmentID }] *)
Definition bare_filter (this : t) : Filter :=
  {| filter_where := None;
     top_walletId := Some (id (wallet this));
     top_enrollmentID := Some (enrollmentID this) |}.

(** [{ where: { walletId: this.wallet.id,
                enrollmentID: this.enrollmentID } }] *)
Definition where_filter (this : t) : Filter :=
  {| filter_where := Some {| where_walletId := id (wallet this);
                      where_enrollmentID := enrollmentID this |};
     top_walletId := None;
     top_enrollmentID := None |}.

(** [this.app.models.WalletIdentity.findOne(filter)] *)
Definition WalletIdentity_findOne (filter : Filter)
  : Async S (option WalletIdentity) :=
  λ st, (findOne filter st, st).

(** Reading a property of [identity] throws when [identity] is
    [null]. *)
Definition property_of (identity : option WalletIdentity)
    (property : string) : Async S WalletIdentity :=
  match identity with
  | Some instance => resolve instance
  | None => reject (TypeError_property_of_null property)
  end.

Definition list (this : t) : Async S (Datatypes.list string) :=
  identity ← WalletIdentity_findOne (bare_filter this);
  instance ← property_of identity "data";
  resolve (Array_sort (Object_keys (data instance))).

Definition contains (this : t) (name : string) : Async S bool :=
  identity ← WalletIdentity_findOne (bare_filter this);
  instance ← property_of identity "data";
  match js_get (data instance) "hasOwnProperty" with
  | Inherited _ => resolve (hasOwnProperty (data instance) name)
  | _ => reject (TypeError_not_a_function "identity.data.hasOwnProperty")
  end.

Definition get (this : t) (name : string) : Async S JsValue :=
  identity ← WalletIdentity_findOne (where_filter this);
  instance ← property_of identity "data";
  resolve (js_get (data instance) name).

Definition add (this : t) (name value : string) : Async S WalletIdentity :=
  identity ← WalletIdentity_findOne (where_filter this);
  instance ← property_of identity "data";
  save (with_data instance (js_set (data instance) name value)).

Definition update (this : t) (name value : string)
  : Async S WalletIdentity :=
  identity ← WalletIdentity_findOne (where_filter this);
  instance ← property_of identity "data";
  save (with_data instance (js_set (data instance) name value)).

Definition remove (this : t) (name : string) : Async S WalletIdentity :=
  identity ← WalletIdentity_findOne (bare_filter this);
  instance ← property_of identity "data";
  save (with_data instance (js_delete (data instance) name)).

End Operations.

End LoopBackWallet.

(** ** The LoopBack data source *)

(** The persisted model behind [app.models.WalletIdentity], as LoopBack's
    data access layer behaves for the calls the wallet makes.  The table is
    the sequence of stored instances in the order the connector returns
    them.

    [findOne(filter)] resolves with the first instance that satisfies
    [filter.where]; a filter without [where] has no condition, whatever other
    keys the object carries, and every instance satisfies it.  When no
    instance does, the promise resolves with [null].

    [identity.save()] first serialises the instance: for a property value
    [val] with a truthy [val.toObject] it calls [val.toObject(...)].  When
    [data] holds a non-empty string under the key [toObject] that call
    throws a [TypeError] and nothing is written.  Otherwise the instance is
    written over the row that has its primary key (and appended when there
    is none) and the promise resolves with the instance. *)
Module Memory.

Abbreviation Table := (list WalletIdentity).

Definition satisfies (condition : option Where) (row : WalletIdentity)
  : bool :=
  match condition with
  | None => true
  | Some c =>
      bool_decide (identity_walletId row = where_walletId c) &&
      bool_decide (identity_enrollmentID row = where_enrollmentID c)
  end.

Definition findOne (filter : Filter) (table : Table)
  : Promise (option WalletIdentity) :=
  Resolved (List.find (satisfies (filter_where filter)) table).

Definition same_id (instance row : WalletIdentity) : bool :=
  bool_decide (identity_id row = identity_id instance).

(** [data] can be serialised: [data.toObject] is not truthy. *)
Definition serializable (d : JsObject) : bool :=
  negb (truthy (js_get d "toObject")).

Definition save (instance : WalletIdentity) : Async Table WalletIdentity :=
  λ table,
    if serializable (data instance)
    then
      (Resolved instance,
       if existsb (same_id instance) table
       then (λ row, if same_id instance row then instance else row) <$> table
       else table ++ [instance])
    else (Rejected (TypeError_not_a_function "val.toObject"), table).

#[global] Instance model : WalletIdentityModel Table :=
  Build_WalletIdentityModel Table findOne save.

(** The primary key is unique. *)
Definition well_formed (table : Table) : Prop :=
  NoDup (identity_id <$> table).

End Memory.

(** A data source that cannot be reached: every call is rejected with the
    connector's error. *)
Module Unreachable.

Definition ECONNREFUSED : JsError := StoreError "ECONNREFUSED".

Definition findOne (filter : Filter) (st : unit)
  : Promise (option WalletIdentity) :=
  Rejected ECONNREFUSED.

Definition save (instance : WalletIdentity) : Async unit WalletIdentity :=
  reject ECONNREFUSED.

#[global] Instance model : WalletIdentityModel unit :=
  Build_WalletIdentityModel unit findOne save.

End Unreachable.

(** ** A data source with two users *)

Definition alice : LoopBackWallet.t :=
  LoopBackWallet.constructor {| LoopBackWallet.id := 1 |} "alice".
Definition bob : LoopBackWallet.t :=
  LoopBackWallet.constructor {| LoopBackWallet.id := 2 |} "bob".
(** A user without a stored instance. *)
Definition carol : LoopBackWallet.t :=
  LoopBackWallet.constructor {| LoopBackWallet.id := 3 |} "carol".

Definition alice_identity : WalletIdentity :=
  {| identity_id := 1; identity_walletId := 1;
     identity_enrollmentID := "alice"; data := {[ "admin" := "A" ]} |}.
Definition bob_identity : WalletIdentity :=
  {| identity_id := 2; identity_walletId := 2;
     identity_enrollmentID := "bob"; data := {[ "cert" := "B" ]} |}.

Definition two_users : Memory.Table := [alice_identity; bob_identity].

(** ** The six operations as one interface *)

Inductive Operation : Type :=
  | Op_list
  | Op_contains (name : string)
  | Op_get (name : string)
  | Op_add (name value : string)
  | Op_update (name value : string)
  | Op_remove (name : string).

(** What the promise of an operation is resolved with. *)
Inductive Answer : Type :=
  | Names (names : list string)
  | Present (present : bool)
  | Credential (value : JsValue)
  | Saved (instance : WalletIdentity).

Section Interface.
Context {S : Type} `{!WalletIdentityModel S}.

Definition perform (this : LoopBackWallet.t) (op : Operation)
  : Async S Answer :=
  match op with
  | Op_list => names ← LoopBackWallet.list this; mret (Names names)
  | Op_contains name =>
      present ← LoopBackWallet.contains this name; mret (Present present)
  | Op_get name =>
      value ← LoopBackWallet.get this name; mret (Credential value)
  | Op_add name value =>
      instance ← LoopBackWallet.add this name value; mret (Saved instance)
  | Op_update name value =>
      instance ← LoopBackWallet.update this name value; mret (Saved instance)
  | Op_remove name =>
      instance ← LoopBackWallet.remove this name; mret (Saved instance)
  end.

(** The filter object each operation hands to [findOne]. *)
Definition lookup_of (this : LoopBackWallet.t) (op : Operation) : Filter :=
  match op with
  | Op_list | Op_contains _ | Op_remove _ => LoopBackWallet.bare_filter this
  | Op_get _ | Op_add _ _ | Op_update _ _ => LoopBackWallet.where_filter this
  end.

(** The error an operation ends with when its lookup yields no instance:
    the error of the data source if [findOne] was rejected, the
    [TypeError] of reading [data] of [null] if it resolved with [null]. *)
Definition lookup_failure (found : Promise (option WalletIdentity))
  : option JsError :=
  match found with
  | Rejected e => Some e
  | Resolved None => Some (TypeError_property_of_null "data")
  | Resolved (Some _) => None
  end.

End Interface.

(** ** The order of credential names *)

Lemma String_leb_trans (a b c : string) :
  String.leb a b = true → String.leb b c = true → String.leb a c = true.
Proof.
  unfold String.leb. revert b c.
  induction a as [|x a IH]; intros [|y b] [|z c]; simpl; try done.
  unfold Ascii.compare.
  destruct (N.compare_spec (Ascii.N_of_ascii x) (Ascii.N_of_ascii y)) as [Hxy|Hxy|Hxy];
    destruct (N.compare_spec (Ascii.N_of_ascii y) (Ascii.N_of_ascii z)) as [Hyz|Hyz|Hyz];
    destruct (N.compare_spec (Ascii.N_of_ascii x) (Ascii.N_of_ascii z)) as [Hxz|Hxz|Hxz];
    try done; try lia.
  apply IH.
Qed.

#[global] Instance name_le_total : Total name_le.
Proof. intros a b. apply String.leb_total. Qed.
#[global] Instance name_le_trans : Transitive name_le.
Proof. intros a b c. apply String_leb_trans. Qed.
#[global] Instance name_le_antisym : AntiSymm (=) name_le.
Proof. intros a b. apply String.leb_antisym. Qed.

(** ** Own properties *)

Lemma Object_keys_spec (o : JsObject) (name : string) :
  name ∈ Object_keys o ↔ is_Some (o !! name).
Proof. unfold Object_keys. by rewrite elem_of_elements, elem_of_dom. Qed.

Lemma Object_keys_NoDup (o : JsObject) : NoDup (Object_keys o).
Proof. unfold Object_keys. apply NoDup_elements. Qed.

Lemma Object_keys_empty : Object_keys ∅ = [].
Proof. unfold Object_keys. by rewrite dom_empty_L, elements_empty. Qed.

(** Upper case letters come before lower case ones. *)
Example Array_sort_ordinal :
  Array_sort ["key"; "cert"; "Key"; "certificate"; "CERT"]
  = ["CERT"; "Key"; "cert"; "certificate"; "key"].
Proof. by vm_compute. Qed.

Lemma Array_sort_Permutation (names : list string) : Array_sort names ≡ₚ names.
Proof. apply merge_sort_Permutation. Qed.

Lemma Array_sort_Sorted (names : list string) :
  StronglySorted name_le (Array_sort names).
Proof. apply StronglySorted_merge_sort; apply _. Qed.

(** The result of sorting depends on the names only, not on the order in
    which [Object.keys] enumerates them. *)
Lemma Array_sort_unique (names sorted : list string) :
  Sorted name_le sorted → sorted ≡ₚ names → sorted = Array_sort names.
Proof.
  intros Hs Hp. apply (Sorted_unique name_le); [done | |].
  - apply Sorted_merge_sort; apply _.
  - by rewrite Hp, Array_sort_Permutation.
Qed.

Lemma js_set_other (o : JsObject) (name value name' : string) :
  name' ≠ name → js_set o name value !! name' = o !! name'.
Proof.
  intros Hne. unfold js_set.
  destruct (o !! name); [by rewrite lookup_insert_ne|].
  case_bool_decide; [done | by rewrite lookup_insert_ne].
Qed.

Lemma js_set_own (o : JsObject) (name value : string) :
  name ≠ "__proto__" → js_set o name value !! name = Some value.
Proof.
  intros Hne. unfold js_set.
  destruct (o !! name); [by rewrite lookup_insert_eq|].
  rewrite bool_decide_eq_false_2 by done. by rewrite lookup_insert_eq.
Qed.

Lemma js_delete_other (o : JsObject) (name name' : string) :
  name' ≠ name → js_delete o name !! name' = o !! name'.
Proof. intros Hne. unfold js_delete. by rewrite lookup_delete_ne. Qed.

Lemma js_delete_own (o : JsObject) (name : string) :
  js_delete o name !! name = None.
Proof. apply lookup_delete_eq. Qed.

Lemma js_delete_absent (o : JsObject) (name : string) :
  o !! name = None → js_delete o name = o.
Proof. apply delete_id. Qed.

Lemma js_get_own (o : JsObject) (name value : string) :
  o !! name = Some value → js_get o name = Str value.
Proof. intros H. unfold js_get. by rewrite H. Qed.

Lemma js_get_absent (o : JsObject) (name : string) :
  o !! name = None → name ∉ Object_prototype → js_get o name = Undefined.
Proof.
  intros H Hp. unfold js_get. rewrite H. by rewrite bool_decide_eq_false_2.
Qed.

(** ** One operation at a time *)

Section Generic.
Context {S : Type} `{!WalletIdentityModel S}.
Implicit Types (this : LoopBackWallet.t) (st : S) (name value : string).

Ltac run_lookup H :=
  unfold LoopBackWallet.list, LoopBackWallet.contains, LoopBackWallet.get,
    LoopBackWallet.add, LoopBackWallet.update, LoopBackWallet.remove,
    mbind, mret, Async_bind, Async_ret, then_,
    LoopBackWallet.WalletIdentity_findOne;
  rewrite H; simpl.

Lemma list_found this st instance :
  findOne (LoopBackWallet.bare_filter this) st = Resolved (Some instance) →
  LoopBackWallet.list this st
  = (Resolved (Array_sort (Object_keys (data instance))), st).
Proof. intros H. by run_lookup H. Qed.

Lemma contains_found this name st instance :
  findOne (LoopBackWallet.bare_filter this) st = Resolved (Some instance) →
  data instance !! "hasOwnProperty" = None →
  LoopBackWallet.contains this name st
  = (Resolved (hasOwnProperty (data instance) name), st).
Proof.
  intros H Hown. run_lookup H. unfold js_get. by rewrite Hown.
Qed.

Lemma get_found this name st instance :
  findOne (LoopBackWallet.where_filter this) st = Resolved (Some instance) →
  LoopBackWallet.get this name st
  = (Resolved (js_get (data instance) name), st).
Proof. intros H. by run_lookup H. Qed.

(** A name that is neither a key of [data] nor a member of
    [Object.prototype] reads as [undefined]; no read is rejected. *)
Lemma get_absent this name st instance :
  findOne (LoopBackWallet.where_filter this) st = Resolved (Some instance) →
  data instance !! name = None → name ∉ Object_prototype →
  LoopBackWallet.get this name st = (Resolved Undefined, st).
Proof.
  intros H Hown Hproto. rewrite (get_found _ _ _ _ H).
  by rewrite js_get_absent.
Qed.

Lemma add_found this name value st instance :
  findOne (LoopBackWallet.where_filter this) st = Resolved (Some instance) →
  LoopBackWallet.add this name value st
  = save (with_data instance (js_set (data instance) name value)) st.
Proof. intros H. by run_lookup H. Qed.

Lemma remove_found this name st instance :
  findOne (LoopBackWallet.bare_filter this) st = Resolved (Some instance) →
  LoopBackWallet.remove this name st
  = save (with_data instance (js_delete (data instance) name)) st.
Proof. intros H. by run_lookup H. Qed.

(** What a mutator hands to [save] is the instance it fetched, changed at
    the one name. *)
Lemma mutators_save this name value st instance :
  findOne (LoopBackWallet.where_filter this) st = Resolved (Some instance) →
  ∃ d : JsObject,
    LoopBackWallet.add this name value st = save (with_data instance d) st ∧
    LoopBackWallet.update this name value st = save (with_data instance d) st ∧
    ∀ name', name' ≠ name →
             js_get d name' = js_get (data instance) name'.
Proof.
  intros H. exists (js_set (data instance) name value).
  split; [by apply add_found|]. split; [by apply add_found|].
  intros name' Hne. unfold js_get. by rewrite js_set_other.
Qed.

Lemma remove_save this name st instance :
  findOne (LoopBackWallet.bare_filter this) st = Resolved (Some instance) →
  ∃ d : JsObject,
    LoopBackWallet.remove this name st = save (with_data instance d) st ∧
    ∀ name', name' ≠ name →
             js_get d name' = js_get (data instance) name'.
Proof.
  intros H. exists (js_delete (data instance) name).
  split; [by apply remove_found|].
  intros name' Hne. unfold js_get. by rewrite js_delete_other.
Qed.

Lemma add_null this name value st :
  findOne (LoopBackWallet.where_filter this) st = Resolved None →
  LoopBackWallet.add this name value st
  = (Rejected (TypeError_property_of_null "data"), st).
Proof. intros H. by run_lookup H. Qed.

Lemma remove_null this name st :
  findOne (LoopBackWallet.bare_filter this) st = Resolved None →
  LoopBackWallet.remove this name st
  = (Rejected (TypeError_property_of_null "data"), st).
Proof. intros H. by run_lookup H. Qed.

(** C1, as the code has it.  An operation whose lookup yields no instance
    is rejected and leaves the data source as it was: with the error of
    the data source, unmodified, when [findOne] was rejected, and with the
    [TypeError] of reading [data] of [null] when [findOne] resolved with
    [null].  No error of the wallet's own names a missing record. *)
Theorem lookup_failure_rejects this (op : Operation) st (e : JsError) :
  lookup_failure (findOne (lookup_of this op) st) = Some e →
  perform this op st = (Rejected e, st).
Proof.
  intros H. destruct op; simpl in H |- *;
    unfold LoopBackWallet.list, LoopBackWallet.contains, LoopBackWallet.get,
      LoopBackWallet.add, LoopBackWallet.update, LoopBackWallet.remove,
      mbind, mret, Async_bind, Async_ret, then_,
      LoopBackWallet.WalletIdentity_findOne;
    (destruct (findOne _ st) as [[instance|]|e']; simpl in H |- *;
     [discriminate | by inversion H | by inversion H]).
Qed.

(** X19.  When the lookup of [list] yields an instance, [list] resolves
    with the own keys of that instance's [data], each once, in ascending
    order of their code units; this is the only ordered arrangement of
    those keys, and it is empty when [data] is. *)
Theorem list_sorted_keys this st instance :
  findOne (LoopBackWallet.bare_filter this) st = Resolved (Some instance) →
  ∃ names : list string,
    LoopBackWallet.list this st = (Resolved names, st) ∧
    (∀ name, name ∈ names ↔ is_Some (data instance !! name)) ∧
    NoDup names ∧
    StronglySorted name_le names ∧
    (∀ sorted, Sorted name_le sorted →
               sorted ≡ₚ Object_keys (data instance) → sorted = names) ∧
    (data instance = ∅ → names = []).
Proof.
  intros H. exists (Array_sort (Object_keys (data instance))).
  split; [by apply list_found|]. repeat split.
  - rewrite Array_sort_Permutation. apply Object_keys_spec.
  - rewrite Array_sort_Permutation. apply Object_keys_spec.
  - rewrite Array_sort_Permutation. apply Object_keys_NoDup.
  - apply Array_sort_Sorted.
  - intros sorted. apply Array_sort_unique.
  - intros ->. by rewrite Object_keys_empty.
Qed.

(** C4.  [update] is [add]: on every state of the data source the two
    give the same promise and leave the same state, and [update] saves
    the instance with [data[name] = value] whether or not [name] was a key
    before. *)
Theorem update_is_add this name value st :
  LoopBackWallet.update this name value st
  = LoopBackWallet.add this name value st ∧
  ∀ instance,
    findOne (LoopBackWallet.where_filter this) st = Resolved (Some instance) →
    LoopBackWallet.update this name value st
    = save (with_data instance (js_set (data instance) name value)) st.
Proof.
  split; [reflexivity|]. intros instance H. by run_lookup H.
Qed.

End Generic.

(** ** Sequences of operations on the LoopBack data source *)

Section InMemory.
Implicit Types (table : Memory.Table) (this : LoopBackWallet.t).
Implicit Types (row instance : WalletIdentity) (name value : string).

Lemma primary_key_unique table row row' :
  Memory.well_formed table → row ∈ table → row' ∈ table →
  identity_id row = identity_id row' → row = row'.
Proof.
  unfold Memory.well_formed.
  induction table as [|x table IH]; intros Hwf Hr Hr' Hid.
  { by apply elem_of_nil in Hr. }
  rewrite fmap_cons in Hwf. apply NoDup_cons in Hwf as [Hx Hwf].
  apply elem_of_cons in Hr as [->|Hr]; apply elem_of_cons in Hr' as [->|Hr'].
  - done.
  - destruct Hx. rewrite Hid. by apply list_elem_of_fmap_2.
  - destruct Hx. rewrite <- Hid. by apply list_elem_of_fmap_2.
  - by apply IH.
Qed.

Lemma findOne_elem (filter : Filter) table instance :
  findOne filter table = Resolved (Some instance) →
  instance ∈ table ∧ Memory.satisfies (filter_where filter) instance = true.
Proof.
  simpl. unfold Memory.findOne. intros [= H].
  apply find_some in H as [Hin Hsat]. by apply list_elem_of_In in Hin.
Qed.

Lemma with_data_same instance : with_data instance (data instance) = instance.
Proof. by destruct instance. Qed.

(** *** What can be serialised *)

Lemma serializable_lookup (d : JsObject) :
  Memory.serializable d
  = match d !! "toObject" with
    | Some v => bool_decide (v = "")
    | None => true
    end.
Proof.
  unfold Memory.serializable, js_get.
  destruct (d !! "toObject") as [v|]; simpl.
  - apply negb_involutive.
  - by vm_compute.
Qed.

Lemma serializable_js_set (d : JsObject) name value :
  Memory.serializable (js_set d name value)
  = if bool_decide (name = "toObject") then bool_decide (value = "")
    else Memory.serializable d.
Proof.
  rewrite !serializable_lookup. case_bool_decide as Hname.
  - subst name. by rewrite js_set_own.
  - by rewrite js_set_other by done.
Qed.

Lemma serializable_js_delete (d : JsObject) name :
  Memory.serializable (js_delete d name)
  = if bool_decide (name = "toObject") then true else Memory.serializable d.
Proof.
  rewrite !serializable_lookup. case_bool_decide as Hname.
  - subst name. by rewrite js_delete_own.
  - by rewrite js_delete_other by done.
Qed.

(** *** Saving *)

Lemma save_rejected table instance :
  Memory.serializable (data instance) = false →
  save instance table
  = (Rejected (TypeError_not_a_function "val.toObject"), table).
Proof. intros Hser. simpl. unfold Memory.save. by rewrite Hser. Qed.

(** Saving an instance that was fetched from a well-formed table rewrites
    that row and no other. *)
Lemma save_replaces table instance (d : JsObject) :
  Memory.well_formed table → instance ∈ table →
  Memory.serializable d = true →
  save (with_data instance d) table
  = (Resolved (with_data instance d),
     (λ row, if bool_decide (row = instance) then with_data instance d
             else row) <$> table).
Proof.
  intros Hwf Hin Hser. simpl. unfold Memory.save. simpl data.
  rewrite Hser. f_equal.
  replace (existsb _ table) with true.
  2:{ symmetry. apply existsb_exists. exists instance. split.
      - by apply list_elem_of_In.
      - unfold Memory.same_id. by apply bool_decide_eq_true. }
  apply Forall_fmap_ext, Forall_forall. intros row Hrow.
  unfold Memory.same_id. simpl.
  rewrite (bool_decide_ext _ (row = instance)); [done|].
  split; [|by intros ->]. by apply (primary_key_unique table).
Qed.

(** A save either is rejected and writes nothing, or rewrites the one
    row. *)
Lemma save_cases table instance (d : JsObject) :
  Memory.well_formed table → instance ∈ table →
  (Memory.serializable d = false ∧
   save (with_data instance d) table
   = (Rejected (TypeError_not_a_function "val.toObject"), table)) ∨
  (Memory.serializable d = true ∧
   save (with_data instance d) table
   = (Resolved (with_data instance d),
      (λ row, if bool_decide (row = instance) then with_data instance d
              else row) <$> table)).
Proof.
  intros Hwf Hin. destruct (Memory.serializable d) eqn:Hser.
  - right. split; [done|]. by apply save_replaces.
  - left. split; [done|]. by apply save_rejected.
Qed.

Lemma save_same_table table instance :
  Memory.well_formed table → instance ∈ table →
  (save instance table).2 = table.
Proof.
  intros Hwf Hin. rewrite <- (with_data_same instance) at 1.
  destruct (save_cases table instance (data instance) Hwf Hin)
    as [[_ ->] | [_ ->]]; [done|]. simpl. rewrite with_data_same.
  rewrite <- (list_fmap_id table) at 2.
  apply Forall_fmap_ext, Forall_forall. intros row _.
  by case_bool_decide as Heq; [subst row|].
Qed.

Lemma save_same table instance :
  Memory.well_formed table → instance ∈ table →
  save instance table
  = (if Memory.serializable (data instance) then Resolved instance
     else Rejected (TypeError_not_a_function "val.toObject"), table).
Proof.
  intros Hwf Hin.
  rewrite (surjective_pairing (save instance table)).
  rewrite save_same_table by done. f_equal.
  simpl. unfold Memory.save. by destruct (Memory.serializable _).
Qed.

Lemma find_replaced (P : WalletIdentity → bool) table instance instance' :
  find P table = Some instance → P instance' = true →
  find P ((λ row, if bool_decide (row = instance) then instance' else row)
            <$> table) = Some instance'.
Proof.
  intros Hfind HP. induction table as [|x table IH]; [done|].
  simpl in Hfind. rewrite fmap_cons. simpl.
  destruct (P x) eqn:Hx.
  - injection Hfind as ->. rewrite bool_decide_eq_true_2 by done.
    by rewrite HP.
  - assert (x ≠ instance) as Hne.
    { intros ->. apply find_some in Hfind as [_ Hsat]. congruence. }
    rewrite bool_decide_eq_false_2 by done. rewrite Hx. by apply IH.
Qed.

(** After a mutator has saved the instance [findOne] gave it, the same
    lookup yields the saved instance. *)
Lemma findOne_after_save (filter : Filter) table instance (d : JsObject) :
  Memory.well_formed table →
  findOne filter table = Resolved (Some instance) →
  Memory.serializable d = true →
  findOne filter (save (with_data instance d) table).2
  = Resolved (Some (with_data instance d)).
Proof.
  intros Hwf Hfound Hser. destruct (findOne_elem _ _ _ Hfound) as [Hin Hsat].
  rewrite save_replaces by done. simpl. unfold Memory.findOne. f_equal.
  apply find_replaced.
  - simpl in Hfound. unfold Memory.findOne in Hfound. congruence.
  - by destruct (filter_where filter).
Qed.

(** Saving keeps the primary key, the wallet and the enrollment ID of every
    row. *)
Lemma save_keys table instance (d : JsObject) :
  Memory.well_formed table → instance ∈ table →
  let key := λ row,
    (identity_id row, identity_walletId row, identity_enrollmentID row) in
  key <$> (save (with_data instance d) table).2 = key <$> table.
Proof.
  intros Hwf Hin key.
  destruct (save_cases table instance d Hwf Hin) as [[_ ->] | [_ ->]];
    [done|]. simpl.
  rewrite <- list_fmap_compose.
  apply Forall_fmap_ext, Forall_forall. intros row _. simpl.
  by case_bool_decide as Heq; [subst row|].
Qed.

Lemma keys_well_formed table table' :
  (λ row, (identity_id row, identity_walletId row, identity_enrollmentID row))
    <$> table'
  = (λ row, (identity_id row, identity_walletId row, identity_enrollmentID row))
    <$> table →
  Memory.well_formed table → Memory.well_formed table'.
Proof.
  unfold Memory.well_formed. intros Hkeys Hwf.
  assert (∀ t : Memory.Table,
            identity_id <$> t
            = (λ k : N * N * string, k.1.1)
              <$> ((λ row, (identity_id row, identity_walletId row,
                            identity_enrollmentID row)) <$> t)) as Hproj.
  { intros t. rewrite <- list_fmap_compose. done. }
  rewrite Hproj, Hkeys, <- Hproj. done.
Qed.

Lemma save_well_formed table instance (d : JsObject) :
  Memory.well_formed table → instance ∈ table →
  Memory.well_formed (save (with_data instance d) table).2.
Proof.
  intros Hwf Hin. eapply keys_well_formed; [|done].
  by apply save_keys.
Qed.

Lemma save_elem table instance (d : JsObject) :
  Memory.well_formed table → instance ∈ table →
  Memory.serializable d = true →
  with_data instance d ∈ (save (with_data instance d) table).2.
Proof.
  intros Hwf Hin Hser. rewrite save_replaces by done. simpl.
  apply list_elem_of_fmap. exists instance.
  by rewrite bool_decide_eq_true_2.
Qed.

(** Two saves of the same instance in a row: the second one decides. *)
Lemma save_twice table instance (d1 d2 : JsObject) :
  Memory.well_formed table → instance ∈ table →
  Memory.serializable d1 = true → Memory.serializable d2 = true →
  save (with_data (with_data instance d1) d2)
    (save (with_data instance d1) table).2
  = save (with_data instance d2) table.
Proof.
  intros Hwf Hin Hser1 Hser2.
  rewrite (save_replaces (save (with_data instance d1) table).2)
    by (by apply save_well_formed || by apply save_elem || done).
  rewrite !(save_replaces table) by done. simpl. f_equal.
  rewrite <- list_fmap_compose.
  apply Forall_fmap_ext, Forall_forall. intros row Hrow. simpl.
  destruct (decide (row = instance)) as [->|Hother].
  - rewrite (bool_decide_eq_true_2 (instance = instance)) by done.
    by rewrite bool_decide_eq_true_2.
  - rewrite (bool_decide_eq_false_2 (row = instance)) by done.
    rewrite bool_decide_eq_false_2; [done|].
    intros ->. by apply Hother, (primary_key_unique table).
Qed.

(** [add] then [get], through the data source: the value comes back for
    every name that is not [__proto__], when the changed [data] can be
    serialised. *)
Lemma add_then_get table this name value instance :
  Memory.well_formed table →
  findOne (LoopBackWallet.where_filter this) table = Resolved (Some instance) →
  name ≠ "__proto__" →
  Memory.serializable (js_set (data instance) name value) = true →
  (LoopBackWallet.get this name
     (LoopBackWallet.add this name value table).2).1
  = Resolved (Str value).
Proof.
  intros Hwf Hfound Hname Hser.
  rewrite (add_found _ _ _ _ _ Hfound).
  erewrite get_found by (by apply findOne_after_save).
  simpl. f_equal. apply js_get_own. by apply js_set_own.
Qed.

(** X17.  [remove] then [remove] leaves what one [remove] leaves, and
    resolves or is rejected as the first did. *)
Lemma remove_idempotent table this name :
  Memory.well_formed table →
  LoopBackWallet.remove this name
    (LoopBackWallet.remove this name table).2
  = LoopBackWallet.remove this name table.
Proof.
  intros Hwf.
  destruct (findOne (LoopBackWallet.bare_filter this) table)
    as [[instance|]|e] eqn:Hfound.
  - destruct (findOne_elem _ _ _ Hfound) as [Hin _].
    rewrite (remove_found _ _ _ _ Hfound).
    destruct (Memory.serializable (js_delete (data instance) name)) eqn:Hser.
    + pose proof (findOne_after_save _ _ _
                    (js_delete (data instance) name) Hwf Hfound Hser)
        as Hagain.
      rewrite (remove_found _ _ _ _ Hagain). simpl data.
      rewrite (js_delete_absent (js_delete _ _)) by apply js_delete_own.
      by apply save_twice.
    + rewrite save_rejected by done. simpl.
      rewrite (remove_found _ _ _ _ Hfound). by apply save_rejected.
  - rewrite (remove_null _ _ _ Hfound). simpl.
    by rewrite (remove_null _ _ _ Hfound).
  - discriminate Hfound.
Qed.

(** X18.  [remove] then [get], when both lookups yield the same instance
    and the [data] left can be serialised: a name that [Object.prototype]
    does not have reads as [undefined]. *)
Lemma remove_then_get table this name instance :
  Memory.well_formed table →
  findOne (LoopBackWallet.bare_filter this) table = Resolved (Some instance) →
  findOne (LoopBackWallet.where_filter this) table = Resolved (Some instance) →
  Memory.serializable (js_delete (data instance) name) = true →
  name ∉ Object_prototype →
  (LoopBackWallet.get this name
     (LoopBackWallet.remove this name table).2).1
  = Resolved Undefined.
Proof.
  intros Hwf Hbare Hwhere Hser Hproto.
  rewrite (remove_found _ _ _ _ Hbare).
  erewrite get_absent; [done| by apply findOne_after_save | | done].
  apply js_delete_own.
Qed.

(** The lookup under [where] resolves with [null] exactly when no instance
    is stored for the wallet and enrollment ID. *)
Lemma findOne_where_null table this :
  findOne (LoopBackWallet.where_filter this) table = Resolved None ↔
  ∀ row, row ∈ table →
         ¬ (identity_walletId row = LoopBackWallet.id (LoopBackWallet.wallet this) ∧
            identity_enrollmentID row = LoopBackWallet.enrollmentID this).
Proof.
  simpl. unfold Memory.findOne. simpl. split.
  - intros [= Hnone] row Hrow [Hw He].
    apply list_elem_of_In in Hrow.
    pose proof (find_none _ _ Hnone row Hrow) as Hsat. simpl in Hsat.
    by rewrite !bool_decide_eq_true_2 in Hsat.
  - intros Hnone. f_equal.
    destruct (find _ table) as [row|] eqn:Hfind; [|done].
    apply find_some in Hfind as [Hin Hsat]. apply list_elem_of_In in Hin.
    destruct (Hnone row Hin). simpl in Hsat.
    apply andb_prop in Hsat as [Hw He].
    by apply bool_decide_eq_true in Hw, He.
Qed.

(** C10.  On a table with unique primary keys, [add], [update] and
    [remove] of [name] leave the entry of every other name as it was, in
    every stored instance. *)
Theorem mutators_frame table this name value name' :
  Memory.well_formed table → name' ≠ name →
  let entry := λ row, (identity_id row, data row !! name') in
  entry <$> (LoopBackWallet.add this name value table).2 = entry <$> table ∧
  entry <$> (LoopBackWallet.update this name value table).2 = entry <$> table ∧
  entry <$> (LoopBackWallet.remove this name table).2 = entry <$> table.
Proof.
  intros Hwf Hne entry.
  assert (∀ instance (d : JsObject),
            instance ∈ table → d !! name' = data instance !! name' →
            entry <$> (save (with_data instance d) table).2 = entry <$> table)
    as Hsave.
  { intros instance d Hin Hd.
    destruct (save_cases table instance d Hwf Hin) as [[_ ->] | [_ ->]];
      [done|]. simpl.
    rewrite <- list_fmap_compose.
    apply Forall_fmap_ext, Forall_forall. intros row _. simpl.
    case_bool_decide as Heq; [subst row|done].
    unfold entry. simpl. by rewrite Hd. }
  assert (entry <$> (LoopBackWallet.add this name value table).2
          = entry <$> table) as Hadd.
  { destruct (findOne (LoopBackWallet.where_filter this) table)
      as [[instance|]|e] eqn:Hfound; try discriminate Hfound.
    - rewrite (add_found _ _ _ _ _ Hfound).
      apply Hsave; [by apply (findOne_elem _ _ _ Hfound)|].
      by apply js_set_other.
    - by rewrite (add_null _ _ _ _ Hfound). }
  split; [done|]. split; [exact Hadd|].
  destruct (findOne (LoopBackWallet.bare_filter this) table)
    as [[instance|]|e] eqn:Hfound; try discriminate Hfound.
  - rewrite (remove_found _ _ _ _ Hfound).
    apply Hsave; [by apply (findOne_elem _ _ _ Hfound)|].
    by apply js_delete_other.
  - by rewrite (remove_null _ _ _ Hfound).
Qed.

End InMemory.

(** ** The operations at concrete inputs *)

Section Scenarios.
Import LoopBackWallet.

(** The scenario of the specification, on a data source that holds one
    instance. *)
Example scenario :
  let start : Memory.Table := [with_data bob_identity {[ "cert" := "A" ]}] in
  let added := (add bob "key" "B" start).2 in
  let removed := (remove bob "cert" added).2 in
  (list bob start).1 = Resolved ["cert"] ∧
  (list bob added).1 = Resolved ["cert"; "key"] ∧
  (contains bob "cert" removed).1 = Resolved false ∧
  (get bob "cert" removed).1 = Resolved Undefined.
Proof. vm_compute. done. Qed.

(** C1 as stated fails.  No instance is stored for carol.  Her [get] is
    rejected with a [TypeError] although the data source reported no error
    (its lookup resolved with [null]), and her [list] is not rejected at
    all. *)
Lemma missing_record_not_reported :
  (∀ row, row ∈ two_users →
          ¬ (identity_walletId row = id (wallet carol) ∧
             identity_enrollmentID row = enrollmentID carol)) ∧
  findOne (lookup_of carol (Op_get "cert")) two_users = Resolved None ∧
  (perform carol (Op_get "cert") two_users).1
  = Rejected (TypeError_property_of_null "data") ∧
  (perform carol Op_list two_users).1 = Resolved (Names ["admin"]).
Proof.
  split; [|by vm_compute].
  intros row Hrow [Hw _]. simpl in Hw.
  unfold two_users in Hrow. rewrite !elem_of_cons in Hrow.
  destruct Hrow as [->| [->|Hrow]]; [done | done |].
  by apply elem_of_nil in Hrow.
Qed.

(** C2 at a failing input.  [list], [contains] and [remove] pass the two
    keys at the top level of the filter, [get], [add] and [update] under
    [where]: never the same object.  With two users stored, bob's [list]
    is answered from alice's instance and bob's [get] from his own. *)
Theorem lookups_differ :
  (∀ this, bare_filter this ≠ where_filter this) ∧
  findOne (lookup_of bob Op_list) two_users = Resolved (Some alice_identity) ∧
  findOne (lookup_of bob (Op_get "cert")) two_users
  = Resolved (Some bob_identity) ∧
  alice_identity ≠ bob_identity ∧
  (list bob two_users).1 = Resolved ["admin"] ∧
  (get bob "admin" two_users).1 = Resolved Undefined.
Proof.
  split; [done|]. by vm_compute.
Qed.

(** C3 at a failing input.  With two users stored, bob's [list] resolves
    with the names of alice's record, not with the keys of his own; and a
    name bob adds, which his [get] then returns, is not among the names his
    [list] resolves with. *)
Theorem list_reads_other_record :
  let added := (add bob "key" "K" two_users).2 in
  findOne (where_filter bob) two_users = Resolved (Some bob_identity) ∧
  Array_sort (Object_keys (data bob_identity)) = ["cert"] ∧
  (list bob two_users).1 = Resolved ["admin"] ∧
  (get bob "key" added).1 = Resolved (Str "K") ∧
  (list bob added).1 = Resolved ["admin"].
Proof. by vm_compute. Qed.

(** C5 at a failing input.  [toString] is not a key of bob's [data], and
    [get] resolves with the function inherited from [Object.prototype],
    not with [undefined]. *)
Theorem get_inherited_member :
  data bob_identity !! "toString" = None ∧
  (contains bob "toString" [bob_identity]).1 = Resolved false ∧
  (get bob "toString" [bob_identity]).1 = Resolved (Inherited "toString").
Proof. by vm_compute. Qed.

(** C6 at a failing input.  Both [add]s of the name [__proto__] are
    resolved, neither stores anything, and [get] resolves with the
    prototype object, not with the second value. *)
Theorem add_proto_not_stored :
  let start : Memory.Table := [bob_identity] in
  let first := add bob "__proto__" "v1" start in
  let second := add bob "__proto__" "v2" first.2 in
  first.1 = Resolved bob_identity ∧
  second = (Resolved bob_identity, start) ∧
  (get bob "__proto__" second.2).1 = Resolved (Inherited "__proto__").
Proof. by vm_compute. Qed.

(** C7 at a failing input.  With two users stored, bob's [remove] of
    [cert] is resolved after saving alice's instance, and bob's [get] still
    resolves with the credential. *)
Theorem remove_misses_record :
  remove bob "cert" two_users = (Resolved alice_identity, two_users) ∧
  (get bob "cert" (remove bob "cert" two_users).2).1 = Resolved (Str "B").
Proof. by vm_compute. Qed.

(** C8 at failing inputs.  Once a credential named [hasOwnProperty] is
    stored, [contains] is rejected with a [TypeError] for a name that is a
    key; and with two users stored, bob's [contains] is answered from
    alice's instance. *)
Theorem contains_fails :
  let shadowed := (add bob "hasOwnProperty" "x" [bob_identity]).2 in
  (get bob "hasOwnProperty" shadowed).1 = Resolved (Str "x") ∧
  (contains bob "hasOwnProperty" shadowed).1
  = Rejected (TypeError_not_a_function "identity.data.hasOwnProperty") ∧
  (contains bob "cert" shadowed).1
  = Rejected (TypeError_not_a_function "identity.data.hasOwnProperty") ∧
  data bob_identity !! "cert" = Some "B" ∧
  (contains bob "cert" two_users).1 = Resolved false.
Proof. by vm_compute. Qed.

(** C9 at a failing input.  After [add] of the name [__proto__] is
    resolved, a wallet constructed anew for the same wallet and enrollment
    ID gets the prototype object, not the value. *)
Theorem proto_not_persisted :
  let stored := add bob "__proto__" "v" two_users in
  let reopened := constructor (wallet bob) (enrollmentID bob) in
  stored.1 = Resolved bob_identity ∧
  (get reopened "__proto__" stored.2).1 = Resolved (Inherited "__proto__").
Proof. by vm_compute. Qed.

End Scenarios.

(** ** The theorems at concrete inputs *)

Lemma two_users_well_formed : Memory.well_formed two_users.
Proof. apply (bool_decide_unpack _). by vm_compute. Qed.

Lemma lookup_failure_rejects_witness :
  perform carol (Op_get "cert") two_users
  = (Rejected (TypeError_property_of_null "data"), two_users) ∧
  perform carol (Op_remove "cert") ()
  = (Rejected Unreachable.ECONNREFUSED, ()).
Proof.
  split.
  - apply lookup_failure_rejects. reflexivity.
  - apply lookup_failure_rejects. reflexivity.
Defined.

Lemma list_sorted_keys_witness :
  let stored :=
    with_data alice_identity
      (js_set (js_set (js_set ∅ "key" "1") "cert" "2") "Key" "3") in
  ∃ names : list string,
    LoopBackWallet.list bob [stored; bob_identity]
    = (Resolved names, [stored; bob_identity]) ∧
    StronglySorted name_le names ∧
    names = ["Key"; "cert"; "key"].
Proof.
  intros stored.
  assert (findOne (LoopBackWallet.bare_filter bob) [stored; bob_identity]
          = Resolved (Some stored)) as Hfound by reflexivity.
  pose proof (list_sorted_keys bob [stored; bob_identity] stored Hfound) as H.
  destruct H as (names & Hlist & _ & _ & Hsorted & _).
  assert (LoopBackWallet.list bob [stored; bob_identity]
          = (Resolved ["Key"; "cert"; "key"], [stored; bob_identity]))
    as Hrun by (by vm_compute).
  exists names. split; [exact Hlist|]. split; [exact Hsorted|].
  rewrite Hrun in Hlist. by injection Hlist.
Defined.

Lemma update_is_add_witness :
  LoopBackWallet.update bob "key" "K" two_users
  = save (with_data bob_identity (js_set (data bob_identity) "key" "K"))
      two_users.
Proof.
  assert (findOne (LoopBackWallet.where_filter bob) two_users
          = Resolved (Some bob_identity)) as Hfound by reflexivity.
  pose proof (update_is_add bob "key" "K" two_users) as [_ Hsave].
  exact (Hsave bob_identity Hfound).
Defined.

Lemma mutators_frame_witness :
  (λ row, (identity_id row, data row !! "cert"))
    <$> (LoopBackWallet.remove bob "admin" two_users).2
  = (λ row, (identity_id row, data row !! "cert")) <$> two_users.
Proof.
  assert ("cert" ≠ "admin") as Hne by discriminate.
  pose proof (mutators_frame two_users bob "admin" "A" "cert"
                two_users_well_formed Hne) as (_ & _ & Hremove).
  exact Hremove.
Defined.

(** ** Further properties of single operations *)

Section Readers.
Context {S : Type} `{!WalletIdentityModel S}.
Implicit Types (this : LoopBackWallet.t) (st : S) (name value : string).

Lemma hasOwnProperty_spec (o : JsObject) name :
  hasOwnProperty o name = true ↔ is_Some (o !! name).
Proof. unfold hasOwnProperty. apply bool_decide_eq_true. Qed.

Lemma list_member this st instance name :
  findOne (LoopBackWallet.bare_filter this) st = Resolved (Some instance) →
  name ∈ Array_sort (Object_keys (data instance))
  ↔ is_Some (data instance !! name).
Proof. intros _. rewrite Array_sort_Permutation. apply Object_keys_spec. Qed.

(** X1.  [list], [contains] and [get] never write: whatever the data source
    answers, they leave its state as it was. *)
Theorem readers_leave_state this name st :
  (LoopBackWallet.list this st).2 = st ∧
  (LoopBackWallet.contains this name st).2 = st ∧
  (LoopBackWallet.get this name st).2 = st.
Proof.
  unfold LoopBackWallet.list, LoopBackWallet.contains, LoopBackWallet.get,
    mbind, Async_bind, then_, LoopBackWallet.WalletIdentity_findOne.
  repeat split.
  - by destruct (findOne _ st) as [[instance|]|e].
  - destruct (findOne _ st) as [[instance|]|e]; simpl; [|done..].
    by destruct (js_get (data instance) "hasOwnProperty").
  - by destruct (findOne _ st) as [[instance|]|e].
Qed.

(** X2.  [contains] agrees with [list]: when [data] has no key
    [hasOwnProperty], [contains(name)] resolves with [true] exactly when
    [name] is among the names [list()] resolves with. *)
Theorem contains_agrees_with_list this name st instance :
  findOne (LoopBackWallet.bare_filter this) st = Resolved (Some instance) →
  data instance !! "hasOwnProperty" = None →
  ∃ (names : list string) (present : bool),
    LoopBackWallet.list this st = (Resolved names, st) ∧
    LoopBackWallet.contains this name st = (Resolved present, st) ∧
    (present = true ↔ name ∈ names).
Proof.
  intros Hfound Hown.
  exists (Array_sort (Object_keys (data instance))),
         (hasOwnProperty (data instance) name).
  split; [by apply list_found|]. split; [by apply contains_found|].
  by rewrite hasOwnProperty_spec, (list_member this st).
Qed.

(** X3.  Once [data] has a key [hasOwnProperty], [contains] is rejected
    with a [TypeError] for every name, and writes nothing. *)
Theorem contains_shadowed this name st instance :
  findOne (LoopBackWallet.bare_filter this) st = Resolved (Some instance) →
  is_Some (data instance !! "hasOwnProperty") →
  LoopBackWallet.contains this name st
  = (Rejected (TypeError_not_a_function "identity.data.hasOwnProperty"), st).
Proof.
  intros Hfound [shadow Hown].
  unfold LoopBackWallet.contains, mbind, Async_bind, then_,
    LoopBackWallet.WalletIdentity_findOne.
  rewrite Hfound. simpl. unfold js_get. by rewrite Hown.
Qed.

(** X4.  [get] resolves with a stored string exactly for the keys of
    [data]: with value [v] when [data[name]] is the own entry [v], and with
    an inherited member or [undefined], never a string, when [name] is not
    a key. *)
Theorem get_string_iff_key this name st instance :
  findOne (LoopBackWallet.where_filter this) st = Resolved (Some instance) →
  ∃ result : JsValue,
    LoopBackWallet.get this name st = (Resolved result, st) ∧
    (∀ v, result = Str v ↔ data instance !! name = Some v) ∧
    (data instance !! name = None →
     result = if bool_decide (name ∈ Object_prototype)
              then Inherited name else Undefined).
Proof.
  intros Hfound. exists (js_get (data instance) name).
  split; [by apply get_found|]. unfold js_get.
  destruct (data instance !! name) as [stored|] eqn:Hown.
  - split; [|done]. intros v. split; congruence.
  - split; [|done]. intros v. by case_bool_decide.
Qed.

End Readers.

(** ** Further properties of sequences on the LoopBack data source *)

Section Sequences.
Implicit Types (table : Memory.Table) (this : LoopBackWallet.t).
Implicit Types (row instance : WalletIdentity) (name value : string).

Lemma js_set_same (o : JsObject) name value :
  js_set o name value !! name
  = match o !! name with
    | Some _ => Some value
    | None => if bool_decide (name = "__proto__") then None else Some value
    end.
Proof.
  unfold js_set. destruct (o !! name) eqn:Hown.
  - by rewrite lookup_insert_eq.
  - case_bool_decide; [done | by rewrite lookup_insert_eq].
Qed.

(** Assignments to different names can be swapped. *)
Lemma js_set_commute (o : JsObject) name1 value1 name2 value2 :
  name1 ≠ name2 →
  js_set (js_set o name1 value1) name2 value2
  = js_set (js_set o name2 value2) name1 value1.
Proof.
  intros Hne. apply map_eq. intros k.
  destruct (decide (k = name2)) as [->|Hk2].
  - rewrite js_set_same, (js_set_other _ name1) by done.
    by rewrite (js_set_other _ name1), js_set_same by done.
  - rewrite (js_set_other _ name2) by done.
    destruct (decide (k = name1)) as [->|Hk1].
    + by rewrite !js_set_same, (js_set_other _ name2) by done.
    + by rewrite !js_set_other by done.
Qed.

(** A second assignment to the same name replaces the first. *)
Lemma js_set_twice (o : JsObject) name value1 value2 :
  name ≠ "__proto__" →
  js_set (js_set o name value1) name value2 = js_set o name value2.
Proof.
  intros Hname. apply map_eq. intros k.
  destruct (decide (k = name)) as [->|Hk].
  - by rewrite !js_set_own.
  - by rewrite !js_set_other.
Qed.

Lemma js_delete_js_set (o : JsObject) name value :
  o !! name = None → js_delete (js_set o name value) name = o.
Proof.
  intros Hown. unfold js_set, js_delete. rewrite Hown.
  case_bool_decide; [by apply delete_id|].
  rewrite delete_insert_eq. by apply delete_id.
Qed.

(** What a mutator leaves: the table as it was when its lookup resolved
    with [null], and else what saving the changed instance leaves. *)
Lemma add_table table this name value :
  Memory.well_formed table →
  (LoopBackWallet.add this name value table).2 = table ∨
  ∃ instance,
    instance ∈ table ∧
    Memory.satisfies (filter_where (LoopBackWallet.where_filter this)) instance
    = true ∧
    LoopBackWallet.add this name value table
    = save (with_data instance (js_set (data instance) name value)) table.
Proof.
  intros Hwf.
  destruct (findOne (LoopBackWallet.where_filter this) table)
    as [[instance|]|e] eqn:Hfound; try discriminate Hfound.
  - right. exists instance.
    destruct (findOne_elem _ _ _ Hfound) as [Hin Hsat].
    split; [done|]. split; [done|]. by apply add_found.
  - left. by rewrite (add_null _ _ _ _ Hfound).
Qed.

Lemma remove_table table this name :
  Memory.well_formed table →
  (LoopBackWallet.remove this name table).2 = table ∨
  ∃ instance,
    instance ∈ table ∧
    LoopBackWallet.remove this name table
    = save (with_data instance (js_delete (data instance) name)) table.
Proof.
  intros Hwf.
  destruct (findOne (LoopBackWallet.bare_filter this) table)
    as [[instance|]|e] eqn:Hfound; try discriminate Hfound.
  - right. exists instance.
    destruct (findOne_elem _ _ _ Hfound) as [Hin _].
    split; [done|]. by apply remove_found.
  - left. by rewrite (remove_null _ _ _ Hfound).
Qed.

(** An [add] whose save is rejected changes nothing. *)
Lemma add_rejected table this instance name value :
  findOne (LoopBackWallet.where_filter this) table = Resolved (Some instance) →
  Memory.serializable (js_set (data instance) name value) = false →
  LoopBackWallet.add this name value table
  = (Rejected (TypeError_not_a_function "val.toObject"), table).
Proof.
  intros Hfound Hser. rewrite (add_found _ _ _ _ _ Hfound).
  by apply save_rejected.
Qed.

(** Two [add]s that are both saved amount to one save of the instance with
    both entries. *)
Lemma add_add_table table this instance name1 value1 name2 value2 :
  Memory.well_formed table →
  findOne (LoopBackWallet.where_filter this) table = Resolved (Some instance) →
  Memory.serializable (js_set (data instance) name1 value1) = true →
  Memory.serializable
    (js_set (js_set (data instance) name1 value1) name2 value2) = true →
  LoopBackWallet.add this name2 value2
    (LoopBackWallet.add this name1 value1 table).2
  = save (with_data instance
            (js_set (js_set (data instance) name1 value1) name2 value2)) table.
Proof.
  intros Hwf Hfound Hser1 Hser2.
  destruct (findOne_elem _ _ _ Hfound) as [Hin _].
  rewrite (add_found _ _ _ _ _ Hfound).
  pose proof (findOne_after_save _ _ _
                (js_set (data instance) name1 value1) Hwf Hfound Hser1)
    as Hagain.
  rewrite (add_found _ _ _ _ _ Hagain). simpl data.
  by apply save_twice.
Qed.

(** An [add] of [toObject] that is rejected after an [add] of another
    name: only the other name is stored. *)
Lemma add_then_rejected table this instance name value rejected :
  Memory.well_formed table →
  findOne (LoopBackWallet.where_filter this) table = Resolved (Some instance) →
  Memory.serializable (js_set (data instance) name value) = true →
  name ≠ "toObject" → rejected ≠ "" →
  (LoopBackWallet.add this "toObject" rejected
     (LoopBackWallet.add this name value table).2).2
  = (LoopBackWallet.add this name value table).2.
Proof.
  intros Hwf Hfound Hser Hname Hrejected.
  pose proof (findOne_after_save _ _ _
                (js_set (data instance) name value) Hwf Hfound Hser) as Hagain.
  rewrite (add_found _ _ _ _ _ Hfound).
  rewrite (add_rejected _ _ _ _ _ Hagain); [done|].
  rewrite serializable_js_set. rewrite bool_decide_eq_true_2 by done.
  by apply bool_decide_eq_false.
Qed.

Lemma StronglySorted_filter_keep {A} (R : relation A) (P : A → Prop)
    `{∀ x, Decision (P x)} (l : list A) :
  StronglySorted R l → StronglySorted R (filter P l).
Proof.
  induction 1 as [|x l Hl IH Hx]; [constructor|].
  rewrite filter_cons. case_decide; [|done].
  constructor; [done|].
  apply Forall_forall. intros y [_ Hy]%list_elem_of_filter.
  by eapply Forall_forall in Hx.
Qed.

Lemma Object_keys_delete (o : JsObject) name :
  filter (λ k, k ≠ name) (Object_keys o) ≡ₚ Object_keys (js_delete o name).
Proof.
  apply NoDup_Permutation.
  - apply NoDup_filter, Object_keys_NoDup.
  - apply Object_keys_NoDup.
  - intros k. rewrite list_elem_of_filter, !Object_keys_spec.
    unfold js_delete. destruct (decide (k = name)) as [->|Hne].
    + rewrite lookup_delete_eq. split; [by intros [? _] | by intros []].
    + rewrite lookup_delete_ne by done. tauto.
Qed.

Lemma find_filter (P : WalletIdentity → bool) table :
  find P (List.filter P table) = find P table.
Proof.
  induction table as [|row table IH]; [done|]. simpl.
  destruct (P row) eqn:Hrow; simpl; [by rewrite Hrow | done].
Qed.

Lemma save_promise table instance :
  (save instance table).1
  = if Memory.serializable (data instance) then Resolved instance
    else Rejected (TypeError_not_a_function "val.toObject").
Proof. simpl. unfold Memory.save. by destruct (Memory.serializable _). Qed.

(** X5.  The mutators neither create nor delete records: on a table with
    unique primary keys, [add], [update] and [remove] leave the primary key,
    wallet and enrollment ID of every row in place, and the keys stay
    unique. *)
Theorem mutators_keep_records table this name value :
  Memory.well_formed table →
  let key := λ row,
    (identity_id row, identity_walletId row, identity_enrollmentID row) in
  let kept := λ after : Memory.Table,
    key <$> after = key <$> table ∧ Memory.well_formed after in
  kept (LoopBackWallet.add this name value table).2 ∧
  kept (LoopBackWallet.update this name value table).2 ∧
  kept (LoopBackWallet.remove this name table).2.
Proof.
  intros Hwf key kept.
  assert (kept (LoopBackWallet.add this name value table).2) as Hadd.
  { destruct (add_table table this name value Hwf)
      as [-> | (instance & Hin & _ & ->)]; [done|].
    split; [by apply save_keys | by apply save_well_formed]. }
  split; [done|]. split; [exact Hadd|].
  destruct (remove_table table this name Hwf)
    as [-> | (instance & Hin & ->)]; [done|].
  split; [by apply save_keys | by apply save_well_formed].
Qed.

(** X6.  [add] stores and overwrites.  When an instance is stored for the
    wallet and enrollment ID, the name is not [__proto__] and [data] with
    the new entry can be serialised (it holds no non-empty string under
    [toObject]), a wallet constructed anew for the same pair gets the value
    after one [add], and the second value after two. *)
Theorem add_upserts table this instance name value1 value2 :
  Memory.well_formed table →
  findOne (LoopBackWallet.where_filter this) table = Resolved (Some instance) →
  name ≠ "__proto__" →
  Memory.serializable (js_set (data instance) name value1) = true →
  Memory.serializable (js_set (data instance) name value2) = true →
  let reopened :=
    LoopBackWallet.constructor (LoopBackWallet.wallet this)
      (LoopBackWallet.enrollmentID this) in
  let once := (LoopBackWallet.add this name value1 table).2 in
  let twice := (LoopBackWallet.add this name value2 once).2 in
  (LoopBackWallet.get reopened name once).1 = Resolved (Str value1) ∧
  (LoopBackWallet.get reopened name twice).1 = Resolved (Str value2).
Proof.
  intros Hwf Hfound Hname Hser1 Hser2 reopened once twice.
  destruct (findOne_elem _ _ _ Hfound) as [Hin _].
  change (LoopBackWallet.get (S:=Memory.Table) reopened)
    with (LoopBackWallet.get (S:=Memory.Table) this).
  split; [by eapply add_then_get|].
  subst twice once.
  rewrite (add_add_table _ _ _ _ _ _ _ Hwf Hfound Hser1)
    by (by rewrite js_set_twice).
  rewrite js_set_twice by done.
  erewrite get_found by (by apply findOne_after_save).
  simpl. f_equal. apply js_get_own. by apply js_set_own.
Qed.

(** X7.  [add]s of different names can be swapped: when the stored [data]
    can be serialised, either order leaves the same table. *)
Theorem add_commutes table this instance name1 value1 name2 value2 :
  Memory.well_formed table →
  findOne (LoopBackWallet.where_filter this) table = Resolved (Some instance) →
  Memory.serializable (data instance) = true →
  name1 ≠ name2 →
  (LoopBackWallet.add this name2 value2
     (LoopBackWallet.add this name1 value1 table).2).2
  = (LoopBackWallet.add this name1 value1
       (LoopBackWallet.add this name2 value2 table).2).2.
Proof.
  intros Hwf Hfound Hser Hne.
  assert (∀ n1 v1 n2 v2,
            Memory.serializable (js_set (data instance) n1 v1) = true →
            Memory.serializable (js_set (data instance) n2 v2) = true →
            n1 ≠ n2 →
            (LoopBackWallet.add this n2 v2
               (LoopBackWallet.add this n1 v1 table).2).2
            = (save (with_data instance
                       (js_set (js_set (data instance) n1 v1) n2 v2))
                 table).2) as Hboth.
  { intros n1 v1 n2 v2 H1 H2 Hn.
    rewrite (add_add_table _ _ _ _ _ _ _ Hwf Hfound H1); [done|].
    rewrite serializable_js_set in H2 |- *.
    case_bool_decide; [done|]. by rewrite H1. }
  assert (∀ n v rejected,
            n ≠ "toObject" → rejected ≠ "" →
            (LoopBackWallet.add this n v
               (LoopBackWallet.add this "toObject" rejected table).2).2
            = (LoopBackWallet.add this "toObject" rejected
                 (LoopBackWallet.add this n v table).2).2) as Hone.
  { intros n v rejected Hn Hrejected.
    assert (Memory.serializable (js_set (data instance) n v) = true) as Hn_ser.
    { rewrite serializable_js_set. by rewrite bool_decide_eq_false_2. }
    rewrite (add_then_rejected _ _ _ _ _ _ Hwf Hfound Hn_ser Hn Hrejected).
    rewrite (add_rejected _ _ _ "toObject" rejected Hfound); [done|].
    rewrite serializable_js_set, bool_decide_eq_true_2 by done.
    by apply bool_decide_eq_false. }
  destruct (Memory.serializable (js_set (data instance) name1 value1))
    eqn:Hser1;
    destruct (Memory.serializable (js_set (data instance) name2 value2))
      eqn:Hser2.
  - rewrite !Hboth by done. by rewrite js_set_commute.
  - rewrite serializable_js_set in Hser2.
    destruct (decide (name2 = "toObject")) as [->|Htwo];
      [|rewrite bool_decide_eq_false_2 in Hser2 by done; congruence].
    rewrite bool_decide_eq_true_2 in Hser2 by done.
    apply bool_decide_eq_false in Hser2. symmetry. by apply Hone.
  - rewrite serializable_js_set in Hser1.
    destruct (decide (name1 = "toObject")) as [->|Hone'];
      [|rewrite bool_decide_eq_false_2 in Hser1 by done; congruence].
    rewrite bool_decide_eq_true_2 in Hser1 by done.
    apply bool_decide_eq_false in Hser1. by apply Hone.
  - rewrite serializable_js_set in Hser1, Hser2.
    destruct (decide (name1 = "toObject")) as [H1|H1];
      [|rewrite bool_decide_eq_false_2 in Hser1 by done; congruence].
    destruct (decide (name2 = "toObject")) as [H2|H2];
      [|rewrite bool_decide_eq_false_2 in Hser2 by done; congruence].
    congruence.
Qed.

(** X8.  [add] and [update] write to the wallet's own record only: a row
    stored for another wallet or enrollment ID is left where and as it
    was. *)
Theorem add_leaves_other_users table this name value (i : nat) row :
  Memory.well_formed table →
  table !! i = Some row →
  ¬ (identity_walletId row = LoopBackWallet.id (LoopBackWallet.wallet this) ∧
     identity_enrollmentID row = LoopBackWallet.enrollmentID this) →
  (LoopBackWallet.add this name value table).2 !! i = Some row ∧
  (LoopBackWallet.update this name value table).2 !! i = Some row.
Proof.
  intros Hwf Hrow Hother.
  assert ((LoopBackWallet.add this name value table).2 !! i = Some row)
    as Hadd; [|by split].
  destruct (add_table table this name value Hwf)
    as [-> | (instance & Hin & Hsat & ->)]; [done|].
  destruct (save_cases table instance (js_set (data instance) name value)
              Hwf Hin) as [[_ ->] | [_ ->]]; [done|]. simpl.
  rewrite list_lookup_fmap, Hrow. simpl.
  rewrite bool_decide_eq_false_2; [done|]. intros ->.
  apply Hother. simpl in Hsat. apply andb_prop in Hsat as [Hw He].
  by apply bool_decide_eq_true in Hw, He.
Qed.

(** X9.  [get], [add] and [update] are rejected with the [TypeError] of
    reading [data] of [null] exactly when no instance is stored for the
    wallet and enrollment ID, and [get] resolves exactly when one is.  With
    an instance stored, [add] resolves exactly when [data] with the new
    entry can be serialised, and is otherwise rejected by [save]. *)
Theorem where_operations_need_record table this name value :
  let missing :=
    ∀ row, row ∈ table →
      ¬ (identity_walletId row = LoopBackWallet.id (LoopBackWallet.wallet this) ∧
         identity_enrollmentID row = LoopBackWallet.enrollmentID this) in
  let null_read {A} (p : Promise A) :=
    p = Rejected (TypeError_property_of_null "data") in
  let stored (instance : WalletIdentity) (saved : bool) :=
    findOne (LoopBackWallet.where_filter this) table = Resolved (Some instance) ∧
    Memory.serializable (js_set (data instance) name value) = saved in
  (missing ↔ null_read (LoopBackWallet.get this name table).1) ∧
  (missing ↔ null_read (LoopBackWallet.add this name value table).1) ∧
  (missing ↔ null_read (LoopBackWallet.update this name value table).1) ∧
  (¬ missing ↔ ∃ result,
      (LoopBackWallet.get this name table).1 = Resolved result) ∧
  (∀ saved, (LoopBackWallet.add this name value table).1 = Resolved saved ↔
     ∃ instance, stored instance true ∧
       saved = with_data instance (js_set (data instance) name value)) ∧
  ((LoopBackWallet.add this name value table).1
   = Rejected (TypeError_not_a_function "val.toObject") ↔
   ∃ instance, stored instance false).
Proof.
  intros missing null_read stored. unfold missing, null_read, stored.
  rewrite <- findOne_where_null.
  change (LoopBackWallet.update this name value table)
    with (LoopBackWallet.add this name value table).
  destruct (findOne (LoopBackWallet.where_filter this) table)
    as [[instance|]|e] eqn:Hfound; try discriminate Hfound.
  - rewrite (get_found _ _ _ _ Hfound).
    rewrite (add_found _ _ _ _ _ Hfound), save_promise. simpl.
    destruct (Memory.serializable (js_set (data instance) name value))
      eqn:Hser.
    + repeat split; try done.
      * intros _. by eexists.
      * intros [= <-]. by exists instance.
      * by intros (other & [[= <-] _] & ->).
      * by intros (other & [= <-] & Hfalse); congruence.
    + repeat split; try done.
      * intros _. by eexists.
      * by intros (other & [[= <-] Htrue] & _); congruence.
      * intros _. by exists instance.
  - rewrite (add_null _ _ _ _ Hfound).
    unfold LoopBackWallet.get, mbind, Async_bind, then_,
      LoopBackWallet.WalletIdentity_findOne. rewrite Hfound. simpl.
    repeat split; try done.
    + by intros [result Hres].
    + by intros (other & [Hnone _] & _).
    + by intros (other & Hnone & _).
Qed.

(** X10.  [remove] then [list], when the [data] left can be serialised:
    the names are those listed before, in the same order, without the
    removed one. *)
Theorem remove_then_list table this instance name :
  Memory.well_formed table →
  findOne (LoopBackWallet.bare_filter this) table = Resolved (Some instance) →
  Memory.serializable (js_delete (data instance) name) = true →
  ∃ before : list string,
    (LoopBackWallet.list this table).1 = Resolved before ∧
    (LoopBackWallet.list this (LoopBackWallet.remove this name table).2).1
    = Resolved (filter (λ k, k ≠ name) before).
Proof.
  intros Hwf Hfound Hser. exists (Array_sort (Object_keys (data instance))).
  split; [by rewrite (list_found _ _ _ Hfound)|].
  rewrite (remove_found _ _ _ _ Hfound).
  erewrite list_found by (by apply findOne_after_save).
  simpl. f_equal. symmetry. apply Array_sort_unique.
  - apply StronglySorted_Sorted, StronglySorted_filter_keep, Array_sort_Sorted.
  - rewrite Array_sort_Permutation. apply Object_keys_delete.
Qed.

(** X11.  [add] then [list], when both lookups yield the same instance,
    the name is not [__proto__] and [data] with the new entry can be
    serialised: the names are those listed before together with the added
    one. *)
Theorem add_then_list table this instance name value :
  Memory.well_formed table →
  findOne (LoopBackWallet.bare_filter this) table = Resolved (Some instance) →
  findOne (LoopBackWallet.where_filter this) table = Resolved (Some instance) →
  name ≠ "__proto__" →
  Memory.serializable (js_set (data instance) name value) = true →
  ∃ before after : list string,
    (LoopBackWallet.list this table).1 = Resolved before ∧
    (LoopBackWallet.list this
       (LoopBackWallet.add this name value table).2).1 = Resolved after ∧
    ∀ k, k ∈ after ↔ k = name ∨ k ∈ before.
Proof.
  intros Hwf Hbare Hwhere Hname Hser.
  exists (Array_sort (Object_keys (data instance))),
         (Array_sort (Object_keys (js_set (data instance) name value))).
  split; [by rewrite (list_found _ _ _ Hbare)|].
  rewrite (add_found _ _ _ _ _ Hwhere).
  erewrite list_found by (by apply findOne_after_save).
  split; [done|]. intros k.
  rewrite !Array_sort_Permutation, !Object_keys_spec.
  destruct (decide (k = name)) as [->|Hne].
  - rewrite js_set_own by done. split; [by left | by eexists].
  - rewrite js_set_other by done. split; [by right | by intros [|]].
Qed.

(** X12.  [remove] of a name that is not a key leaves the whole table as
    it was; it is resolved with the fetched instance when the stored [data]
    can be serialised, and rejected by [save] when it cannot. *)
Theorem remove_absent_noop table this instance name :
  Memory.well_formed table →
  findOne (LoopBackWallet.bare_filter this) table = Resolved (Some instance) →
  data instance !! name = None →
  LoopBackWallet.remove this name table
  = (if Memory.serializable (data instance) then Resolved instance
     else Rejected (TypeError_not_a_function "val.toObject"), table).
Proof.
  intros Hwf Hfound Habsent. destruct (findOne_elem _ _ _ Hfound) as [Hin _].
  rewrite (remove_found _ _ _ _ Hfound).
  rewrite js_delete_absent, with_data_same by done.
  by apply save_same.
Qed.

(** X13.  [add] then [remove] of a name that was not a key, when both
    lookups yield the same instance: the table is as it was before. *)
Theorem add_then_remove_restores table this instance name value :
  Memory.well_formed table →
  findOne (LoopBackWallet.bare_filter this) table = Resolved (Some instance) →
  findOne (LoopBackWallet.where_filter this) table = Resolved (Some instance) →
  data instance !! name = None →
  (LoopBackWallet.remove this name
     (LoopBackWallet.add this name value table).2).2 = table.
Proof.
  intros Hwf Hbare Hwhere Habsent.
  destruct (findOne_elem _ _ _ Hbare) as [Hin _].
  rewrite (add_found _ _ _ _ _ Hwhere).
  destruct (Memory.serializable (js_set (data instance) name value))
    eqn:Hser.
  - assert (Memory.serializable (data instance) = true) as Hbefore.
    { rewrite serializable_js_set in Hser. case_bool_decide; [|done].
      subst name. by rewrite serializable_lookup, Habsent. }
    pose proof (findOne_after_save _ _ _
                  (js_set (data instance) name value) Hwf Hbare Hser)
      as Hagain.
    rewrite (remove_found _ _ _ _ Hagain). simpl data.
    rewrite js_delete_js_set by done.
    rewrite save_twice by done. rewrite with_data_same.
    by apply save_same_table.
  - rewrite save_rejected by done. simpl.
    rewrite (remove_found _ _ _ _ Hbare).
    rewrite js_delete_absent, with_data_same by done.
    by apply save_same_table.
Qed.

(** X14.  [remove] then [contains], when the [data] left can be
    serialised: the removed name is reported absent, provided [data] has no
    key [hasOwnProperty] or that key is the one removed. *)
Theorem remove_then_contains table this instance name :
  Memory.well_formed table →
  findOne (LoopBackWallet.bare_filter this) table = Resolved (Some instance) →
  Memory.serializable (js_delete (data instance) name) = true →
  data instance !! "hasOwnProperty" = None ∨ name = "hasOwnProperty" →
  (LoopBackWallet.contains this name
     (LoopBackWallet.remove this name table).2).1 = Resolved false.
Proof.
  intros Hwf Hfound Hser Hshadow.
  rewrite (remove_found _ _ _ _ Hfound).
  erewrite contains_found; [| by apply findOne_after_save |].
  - simpl. f_equal. unfold hasOwnProperty.
    apply bool_decide_eq_false. rewrite js_delete_own. by intros [].
  - simpl. destruct Hshadow as [Hnone | ->]; [|apply js_delete_own].
    destruct (decide ("hasOwnProperty" = name)) as [<-|Hne].
    + apply js_delete_own.
    + by rewrite js_delete_other.
Qed.

(** X15.  [get] reads the wallet's own record only: its answer is the same
    with the rows of all other wallets and enrollment IDs taken out of the
    table. *)
Theorem get_reads_own_record table this name :
  let own :=
    Memory.satisfies (filter_where (LoopBackWallet.where_filter this)) in
  (LoopBackWallet.get this name table).1
  = (LoopBackWallet.get this name (List.filter own table)).1.
Proof.
  intros own.
  unfold LoopBackWallet.get, mbind, Async_bind, then_,
    LoopBackWallet.WalletIdentity_findOne.
  simpl. unfold Memory.findOne.
  change (Memory.satisfies _) with own. rewrite find_filter.
  by destruct (find own table).
Qed.

(** X16.  [add] and [update] of the name [__proto__] on a record that has
    no such key store nothing: the table is as it was.  They are resolved
    with the fetched instance when the stored [data] can be serialised, and
    rejected by [save] when it cannot. *)
Theorem add_proto_noop table this instance value :
  Memory.well_formed table →
  findOne (LoopBackWallet.where_filter this) table = Resolved (Some instance) →
  data instance !! "__proto__" = None →
  let outcome :=
    (if Memory.serializable (data instance) then Resolved instance
     else Rejected (TypeError_not_a_function "val.toObject"), table) in
  LoopBackWallet.add this "__proto__" value table = outcome ∧
  LoopBackWallet.update this "__proto__" value table = outcome.
Proof.
  intros Hwf Hfound Habsent outcome.
  destruct (findOne_elem _ _ _ Hfound) as [Hin _].
  assert (LoopBackWallet.add this "__proto__" value table = outcome)
    as Hadd; [|by split].
  rewrite (add_found _ _ _ _ _ Hfound). unfold js_set. rewrite Habsent.
  rewrite bool_decide_eq_true_2, with_data_same by done.
  by apply save_same.
Qed.

(** X20.  While [data] holds a non-empty string under [toObject], [remove]
    of any other name is rejected by [save] with a [TypeError] and removes
    nothing. *)
Theorem remove_rejected_by_save table this instance name shadow :
  findOne (LoopBackWallet.bare_filter this) table = Resolved (Some instance) →
  data instance !! "toObject" = Some shadow → shadow ≠ "" →
  name ≠ "toObject" →
  LoopBackWallet.remove this name table
  = (Rejected (TypeError_not_a_function "val.toObject"), table).
Proof.
  intros Hfound Hshadow Hnonempty Hname.
  rewrite (remove_found _ _ _ _ Hfound). apply save_rejected. simpl.
  rewrite serializable_js_delete, bool_decide_eq_false_2 by done.
  rewrite serializable_lookup, Hshadow. by apply bool_decide_eq_false.
Qed.

End Sequences.

(** ** The further properties at concrete inputs *)

Lemma alice_lookups :
  findOne (LoopBackWallet.bare_filter alice) two_users
  = Resolved (Some alice_identity) ∧
  findOne (LoopBackWallet.where_filter alice) two_users
  = Resolved (Some alice_identity).
Proof. split; reflexivity. Qed.

(** A record whose [data] holds a non-empty string under [toObject]: every
    save is rejected, so nothing is removed, a removal of an absent name or
    an [add] of [__proto__] is not resolved, and the order of two [add]s
    shows. *)
Example toObject_blocks_save :
  let blocked : Memory.Table :=
    [with_data bob_identity (<["toObject" := "x"]> {[ "cert" := "B" ]})] in
  let removed := (LoopBackWallet.remove bob "cert" blocked).2 in
  let rejected {A} : Promise A :=
    Rejected (TypeError_not_a_function "val.toObject") in
  (LoopBackWallet.add bob "key" "K" blocked).2 = blocked ∧
  (LoopBackWallet.list bob removed).1 = Resolved ["cert"; "toObject"] ∧
  (LoopBackWallet.contains bob "cert" removed).1 = Resolved true ∧
  (LoopBackWallet.get bob "cert" removed).1 = Resolved (Str "B") ∧
  (LoopBackWallet.remove bob "key" blocked).1 = rejected ∧
  (LoopBackWallet.add bob "__proto__" "v" blocked).1 = rejected ∧
  (LoopBackWallet.add bob "toObject" ""
     (LoopBackWallet.add bob "key" "K" blocked).2).2
  ≠ (LoopBackWallet.add bob "key" "K"
       (LoopBackWallet.add bob "toObject" "" blocked).2).2.
Proof. by vm_compute. Qed.

Lemma contains_agrees_with_list_witness :
  ∃ (names : list string) (present : bool),
    LoopBackWallet.list bob two_users = (Resolved names, two_users) ∧
    LoopBackWallet.contains bob "admin" two_users
    = (Resolved present, two_users) ∧
    (present = true ↔ "admin" ∈ names).
Proof.
  assert (data alice_identity !! "hasOwnProperty" = None) as Hown
    by (by vm_compute).
  exact (contains_agrees_with_list bob "admin" two_users alice_identity
           (proj1 alice_lookups) Hown).
Defined.

Lemma contains_shadowed_witness :
  LoopBackWallet.contains bob "cert"
    [with_data bob_identity {[ "hasOwnProperty" := "x" ]}]
  = (Rejected (TypeError_not_a_function "identity.data.hasOwnProperty"),
     [with_data bob_identity {[ "hasOwnProperty" := "x" ]}]).
Proof.
  assert (is_Some (data (with_data bob_identity {[ "hasOwnProperty" := "x" ]})
                   !! "hasOwnProperty")) as Hown
    by (exists "x"; by vm_compute).
  assert (findOne (LoopBackWallet.bare_filter bob)
            [with_data bob_identity {[ "hasOwnProperty" := "x" ]}]
          = Resolved (Some (with_data bob_identity
                              {[ "hasOwnProperty" := "x" ]}))) as Hfound
    by reflexivity.
  exact (contains_shadowed bob "cert" _ _ Hfound Hown).
Defined.

Lemma get_string_iff_key_witness :
  ∃ result : JsValue,
    LoopBackWallet.get alice "admin" two_users = (Resolved result, two_users) ∧
    (∀ v, result = Str v ↔ data alice_identity !! "admin" = Some v) ∧
    (data alice_identity !! "admin" = None →
     result = if bool_decide ("admin" ∈ Object_prototype)
              then Inherited "admin" else Undefined).
Proof.
  exact (get_string_iff_key alice "admin" two_users alice_identity
           (proj2 alice_lookups)).
Defined.

Lemma mutators_keep_records_witness :
  (λ row, (identity_id row, identity_walletId row, identity_enrollmentID row))
    <$> (LoopBackWallet.add bob "key" "K" two_users).2
  = (λ row, (identity_id row, identity_walletId row, identity_enrollmentID row))
    <$> two_users.
Proof.
  pose proof (mutators_keep_records two_users bob "key" "K"
                two_users_well_formed) as ([Hkeys _] & _ & _).
  exact Hkeys.
Defined.

Lemma add_upserts_witness :
  (LoopBackWallet.get
     (LoopBackWallet.constructor (LoopBackWallet.wallet alice)
        (LoopBackWallet.enrollmentID alice)) "admin"
     (LoopBackWallet.add alice "admin" "A2"
        (LoopBackWallet.add alice "admin" "A1" two_users).2).2).1
  = Resolved (Str "A2").
Proof.
  assert ("admin" ≠ "__proto__") as Hname by discriminate.
  assert (Memory.serializable (js_set (data alice_identity) "admin" "A1")
          = true) as Hser1 by (by vm_compute).
  assert (Memory.serializable (js_set (data alice_identity) "admin" "A2")
          = true) as Hser2 by (by vm_compute).
  pose proof (add_upserts two_users alice alice_identity "admin" "A1" "A2"
                two_users_well_formed (proj2 alice_lookups) Hname Hser1 Hser2)
    as [_ Htwice].
  exact Htwice.
Defined.

Lemma add_commutes_witness :
  (LoopBackWallet.add alice "key" "K"
     (LoopBackWallet.add alice "cert" "C" two_users).2).2
  = (LoopBackWallet.add alice "cert" "C"
       (LoopBackWallet.add alice "key" "K" two_users).2).2.
Proof.
  assert ("cert" ≠ "key") as Hne by discriminate.
  assert (Memory.serializable (data alice_identity) = true) as Hser
    by (by vm_compute).
  exact (add_commutes two_users alice alice_identity "cert" "C" "key" "K"
           two_users_well_formed (proj2 alice_lookups) Hser Hne).
Defined.

Lemma add_leaves_other_users_witness :
  (LoopBackWallet.add alice "key" "K" two_users).2 !! 1%nat
  = Some bob_identity ∧
  (LoopBackWallet.update alice "key" "K" two_users).2 !! 1%nat
  = Some bob_identity.
Proof.
  assert (two_users !! 1%nat = Some bob_identity) as Hrow by reflexivity.
  assert (¬ (identity_walletId bob_identity
             = LoopBackWallet.id (LoopBackWallet.wallet alice) ∧
             identity_enrollmentID bob_identity
             = LoopBackWallet.enrollmentID alice)) as Hother
    by (intros [Hw _]; discriminate Hw).
  exact (add_leaves_other_users two_users alice "key" "K" 1 bob_identity
           two_users_well_formed Hrow Hother).
Defined.

Lemma remove_then_list_witness :
  ∃ before : list string,
    (LoopBackWallet.list alice two_users).1 = Resolved before ∧
    (LoopBackWallet.list alice
       (LoopBackWallet.remove alice "admin" two_users).2).1
    = Resolved (filter (λ k, k ≠ "admin") before).
Proof.
  assert (Memory.serializable (js_delete (data alice_identity) "admin")
          = true) as Hser by (by vm_compute).
  exact (remove_then_list two_users alice alice_identity "admin"
           two_users_well_formed (proj1 alice_lookups) Hser).
Defined.

Lemma add_then_list_witness :
  ∃ before after : list string,
    (LoopBackWallet.list alice two_users).1 = Resolved before ∧
    (LoopBackWallet.list alice
       (LoopBackWallet.add alice "key" "K" two_users).2).1 = Resolved after ∧
    ∀ k, k ∈ after ↔ k = "key" ∨ k ∈ before.
Proof.
  assert ("key" ≠ "__proto__") as Hname by discriminate.
  assert (Memory.serializable (js_set (data alice_identity) "key" "K")
          = true) as Hser by (by vm_compute).
  exact (add_then_list two_users alice alice_identity "key" "K"
           two_users_well_formed (proj1 alice_lookups) (proj2 alice_lookups)
           Hname Hser).
Defined.

Lemma remove_absent_noop_witness :
  LoopBackWallet.remove alice "cert" two_users
  = (if Memory.serializable (data alice_identity)
     then Resolved alice_identity
     else Rejected (TypeError_not_a_function "val.toObject"), two_users).
Proof.
  assert (data alice_identity !! "cert" = None) as Habsent by (by vm_compute).
  exact (remove_absent_noop two_users alice alice_identity "cert"
           two_users_well_formed (proj1 alice_lookups) Habsent).
Defined.

Lemma add_then_remove_restores_witness :
  (LoopBackWallet.remove alice "key"
     (LoopBackWallet.add alice "key" "K" two_users).2).2 = two_users.
Proof.
  assert (data alice_identity !! "key" = None) as Habsent by (by vm_compute).
  exact (add_then_remove_restores two_users alice alice_identity "key" "K"
           two_users_well_formed (proj1 alice_lookups) (proj2 alice_lookups)
           Habsent).
Defined.

Lemma remove_then_contains_witness :
  (LoopBackWallet.contains alice "admin"
     (LoopBackWallet.remove alice "admin" two_users).2).1 = Resolved false.
Proof.
  assert (data alice_identity !! "hasOwnProperty" = None) as Hown
    by (by vm_compute).
  assert (Memory.serializable (js_delete (data alice_identity) "admin")
          = true) as Hser by (by vm_compute).
  exact (remove_then_contains two_users alice alice_identity "admin"
           two_users_well_formed (proj1 alice_lookups) Hser (or_introl Hown)).
Defined.

Lemma remove_idempotent_witness :
  LoopBackWallet.remove alice "admin"
    (LoopBackWallet.remove alice "admin" two_users).2
  = LoopBackWallet.remove alice "admin" two_users.
Proof.
  exact (remove_idempotent two_users alice "admin" two_users_well_formed).
Defined.

Lemma remove_then_get_witness :
  (LoopBackWallet.get alice "admin"
     (LoopBackWallet.remove alice "admin" two_users).2).1 = Resolved Undefined.
Proof.
  assert ("admin" ∉ Object_prototype) as Hproto
    by (apply (bool_decide_unpack _); by vm_compute).
  assert (Memory.serializable (js_delete (data alice_identity) "admin")
          = true) as Hser by (by vm_compute).
  exact (remove_then_get two_users alice "admin" alice_identity
           two_users_well_formed (proj1 alice_lookups) (proj2 alice_lookups)
           Hser Hproto).
Defined.

Lemma add_proto_noop_witness :
  LoopBackWallet.add alice "__proto__" "v" two_users
  = (if Memory.serializable (data alice_identity)
     then Resolved alice_identity
     else Rejected (TypeError_not_a_function "val.toObject"), two_users).
Proof.
  assert (data alice_identity !! "__proto__" = None) as Habsent
    by (by vm_compute).
  pose proof (add_proto_noop two_users alice alice_identity "v"
                two_users_well_formed (proj2 alice_lookups) Habsent)
    as [Hadd _].
  exact Hadd.
Defined.

Lemma remove_rejected_by_save_witness :
  let blocked : Memory.Table :=
    [with_data bob_identity (<["toObject" := "x"]> {[ "cert" := "B" ]})] in
  LoopBackWallet.remove bob "cert" blocked
  = (Rejected (TypeError_not_a_function "val.toObject"), blocked).
Proof.
  intros blocked.
  assert (findOne (LoopBackWallet.bare_filter bob) blocked
          = Resolved (Some (with_data bob_identity
                              (<["toObject" := "x"]> {[ "cert" := "B" ]}))))
    as Hfound by reflexivity.
  assert (data (with_data bob_identity
                  (<["toObject" := "x"]> {[ "cert" := "B" ]})) !! "toObject"
          = Some "x") as Hshadow by (by vm_compute).
  assert ("x" ≠ "") as Hnonempty by discriminate.
  assert ("cert" ≠ "toObject") as Hname by discriminate.
  exact (remove_rejected_by_save blocked bob _ "cert" "x"
           Hfound Hshadow Hnonempty Hname).
Defined.
